(** * Le-Coach chat backend: prompt assembly and route handlers

    A shallow embedding of [backend/src/plugins/chat.ts] (the [ChatService]
    class) and [backend/src/routes/root.ts] (the [/chat] and [/chat/stream]
    handlers), together with the [MessageBuilder] they drive.

    Conventions:
    - a JS [number] holding a token count is a [Z];
    - a JS array is a [list], read with stdpp's lookup [l !! i];
    - a call that may throw, and an awaited promise that may reject, return
      an [Outcome]; [try]/[catch] is a [match] on it;
    - [fastify.log.error] appends to an explicit log. *)

From Stdlib Require Import Ascii String.
From stdpp Require Import base numbers list strings gmap pretty.

Open Scope string_scope.

(** ** Errors and fallible calls *)

Record JsError := { errName : string; message : string }.

Inductive Outcome (A : Type) : Type :=
| Ok (a : A)
| Throw (e : JsError).
Arguments Ok {A} a.
Arguments Throw {A} e.

Definition bindOutcome {A B} (c : Outcome A) (k : A → Outcome B) : Outcome B :=
  match c with
  | Ok a => k a
  | Throw e => Throw e
  end.

Notation "'let!' x ':=' c 'in' k" := (bindOutcome c (λ x, k))
  (at level 10, x name, c at level 100, k at level 200).

Definition TypeError (msg : string) : JsError :=
  {| errName := "TypeError"; message := msg |}.

(** ** Messages *)

(** [AIChatRole] of the chat protocol. *)
Inductive AIChatRole := system | user | assistant.

Definition roleName (r : AIChatRole) : string :=
  match r with
  | system => "system"
  | user => "user"
  | assistant => "assistant"
  end.

(** [AIChatMessage]: the two fields the service reads. *)
Record AIChatMessage := { role : AIChatRole; content : string }.

Global Instance AIChatRole_eq_dec : EqDecision AIChatRole.
Proof. solve_decision. Defined.

Global Instance AIChatMessage_eq_dec : EqDecision AIChatMessage.
Proof. solve_decision. Defined.

(** ** MessageBuilder *)

(** What [popMessage] does when there is no message at index 1. *)
Inductive PopGuard := PopNoOp | PopFails.

Module MessageBuilder.
Section Builder.

(** The tokenizer is an external library: the estimated token count of one
    message under a token model is a parameter. *)
Variable tokenCount : string → AIChatMessage → Z.

Variable guard : PopGuard.

(** Modelled from the spec: [lib/message-builder.ts] is not among the
    sources. The entity has the four fields of the data model. *)
Record t := {
  systemMessage : string;
  tokenModel : string;
  messages : list AIChatMessage;
  tokens : Z
}.

(** Modelled from the spec: the constructor of [lib/message-builder.ts];
    [messages] starts as exactly the system message and [tokens] as its
    estimated token count under [tokenModel]. *)
Definition new (systemMessage tokenModel : string) : t :=
  let m := {| role := system; content := systemMessage |} in
  {| systemMessage := systemMessage;
     tokenModel := tokenModel;
     messages := [m];
     tokens := tokenCount tokenModel m |}.

(** Modelled from the spec: [appendMessage] of [lib/message-builder.ts];
    builds a message from [role] and [content], adds it to [messages] and
    increases [tokens] by its estimated token count. The new message goes
    in at index 1, right after the system message: that is the place from
    which [popMessage], which removes index 1, undoes the most recent
    append (4.1), and what leaves the sequence as system message, history
    oldest to newest, current user turn last when the caller appends the
    current turn first and the history newest first (3, 4.1 step 4, 8).
    Earlier entries keep their relative order. *)
Definition appendMessage (r : AIChatRole) (c : string) (b : t) : t :=
  let m := {| role := r; content := c |} in
  {| systemMessage := systemMessage b;
     tokenModel := tokenModel b;
     messages := take 1 (messages b) ++ m :: drop 1 (messages b);
     tokens := (tokens b + tokenCount (tokenModel b) m)%Z |}.

Definition popError : JsError :=
  {| errName := "Error"; message := "no message to pop" |}.

(** Modelled from the spec: [popMessage] of [lib/message-builder.ts];
    removes the message at index 1 and decreases [tokens] by that
    message's estimated token count. With fewer than two messages it is a
    no-op or it fails, as [guard] says. *)
Definition popMessage (b : t) : Outcome t :=
  match messages b !! 1%nat with
  | Some m =>
      Ok {| systemMessage := systemMessage b;
            tokenModel := tokenModel b;
            messages := delete 1%nat (messages b);
            tokens := (tokens b - tokenCount (tokenModel b) m)%Z |}
  | None =>
      match guard with
      | PopNoOp => Ok b
      | PopFails => Throw popError
      end
  end.

(** Modelled from the spec: [getMessages] of [lib/message-builder.ts];
    returns the current [messages] sequence unmodified. *)
Definition getMessages (b : t) : list AIChatMessage := messages b.

(** The sum of the per-message estimates of a sequence. *)
Definition sumTokens (model : string) (ms : list AIChatMessage) : Z :=
  foldr (λ m acc, (tokenCount model m + acc)%Z) 0%Z ms.

(** Operations a client may issue after construction. *)
Inductive Op :=
| OpAppend (r : AIChatRole) (c : string)
| OpPop.

(** One operation; a [popMessage] that throws leaves the builder as it
    was. *)
Definition step (b : t) (o : Op) : t :=
  match o with
  | OpAppend r c => appendMessage r c b
  | OpPop =>
      match popMessage b with
      | Ok b' => b'
      | Throw _ => b
      end
  end.

Definition exec (ops : list Op) (b : t) : t := foldl step b ops.

End Builder.
End MessageBuilder.

(** ** Text helpers of the service *)

Definition nl : string := String "010"%char EmptyString.

Definition isLineBreak (c : ascii) : bool :=
  bool_decide (c = "010"%char) || bool_decide (c = "013"%char).

(** [s.replaceAll(/[\n\r]+/g, ' ')]: every maximal run of line breaks
    becomes one space. [inRun] says the previous character was a line
    break. *)
Fixpoint collapseLineBreaks (inRun : bool) (s : string) : string :=
  match s with
  | EmptyString => EmptyString
  | String c s' =>
      if isLineBreak c
      then (if inRun then collapseLineBreaks true s'
            else String " "%char (collapseLineBreaks true s'))
      else String c (collapseLineBreaks false s')
  end.

(** [s.replaceAll('\n', '<br>')]. *)
Fixpoint breakLines (s : string) : string :=
  match s with
  | EmptyString => EmptyString
  | String c s' =>
      if bool_decide (c = "010"%char)
      then "<br>" +:+ breakLines s'
      else String c (breakLines s')
  end.

(** [xs.join(sep)]. *)
Definition join (sep : string) (xs : list string) : string :=
  String.concat sep xs.

Definition SYSTEM_MESSAGE_PROMPT : string :=
  "You are an AI coach designed to help people achieve their health and fitness goals. Answer questions by referencing the knowledge base provided below. If there isn't enough information in the sources, say you don't know. Do not generate answers that don't use the provided sources. "
  +:+ nl +:+ nl +:+
  "For any recommendations, always cite the specific source of information using square brackets, for example: [document1.pdf]. List each source separately, don't combine them, for example: [document1.pdf][document2.pdf]."
  +:+ nl +:+ nl +:+
  "Your answers should always be backed by relevant information from the sources. Always reference the sources. You can ask a follow up question but reserve that for the most needed cases. "
  +:+ nl +:+ nl +:+
  "The ideal response should give the user exactly what they need to know - nothing more, nothing less. To emphasize, be concise. "
  +:+ nl.

(** ** External collaborators of the service *)

(** A retrieved document: [metadata.source] and [pageContent]. *)
Record Document := { source : string; pageContent : string }.

(** The one field of the application configuration the service reads. *)
Record AppConfig := { azureOpenAiApiModelName : string }.

(** The chat model: [invoke] resolves to the completion's content or
    rejects. *)
Record BaseChatModel := {
  invoke : list AIChatMessage → Outcome string
}.

(** The vector store: [similaritySearch(query, k)] resolves to documents or
    rejects. *)
Record VectorStore := {
  similaritySearch : string → nat → Outcome (list Document)
}.

(** [AIChatCompletion] as [run] fills it. *)
Record AIChatCompletion := {
  completionMessage : AIChatMessage;
  data_points : list string;
  thoughts : string
}.

(** ** ChatService *)

Module ChatService.
Section Service.

Variable tokenCount : string → AIChatMessage → Z.
Variable guard : PopGuard.

Abbreviation newBuilder := (MessageBuilder.new tokenCount).
Abbreviation appendMessage := (MessageBuilder.appendMessage tokenCount).
Abbreviation popMessage := (MessageBuilder.popMessage tokenCount guard).

(** The class: the public field [tokenLimit] and the three constructor
    parameter properties. *)
Record t := {
  tokenLimit : Z;
  config : AppConfig;
  model : BaseChatModel;
  vectorStore : VectorStore
}.

(** [new ChatService(config, model, vectorStore)], with the field
    initialiser [tokenLimit: number = 4000]. *)
Definition new (config : AppConfig) (model : BaseChatModel)
    (vectorStore : VectorStore) : t :=
  {| tokenLimit := 4000;
     config := config;
     model := model;
     vectorStore := vectorStore |}.

(** [messages[messages.length - 1].content]: on an empty array the element
    is [undefined] and reading [content] throws. *)
Definition lastContent (messages : list AIChatMessage) : Outcome string :=
  match last messages with
  | Some m => Ok (content m)
  | None =>
      Throw (TypeError "Cannot read properties of undefined (reading 'content')")
  end.

(** The [for] loop over the retrieved documents. *)
Definition formatResults (documents : list Document) : list string :=
  map (λ document,
         source document +:+ ": "
           +:+ collapseLineBreaks false (pageContent document))
      documents.

(** The latest user message with the sources injected into it. *)
Definition userMessageOf (question : string) (results : list string) : string :=
  question +:+ nl +:+ nl +:+ "Sources:" +:+ nl +:+ join nl results.

(** [messages.slice(0, -1).reverse()]. *)
Definition historyWalk (messages : list AIChatMessage) : list AIChatMessage :=
  reverse (take (length messages - 1) messages).

(** The loop that adds the previous messages: at the top of each
    iteration, a running total above the limit pops and breaks; otherwise
    the history message is appended. *)
Fixpoint historyLoop (limit : Z) (walk : list AIChatMessage)
    (messageBuilder : MessageBuilder.t) : Outcome MessageBuilder.t :=
  match walk with
  | [] => Ok messageBuilder
  | historyMessage :: older =>
      if bool_decide (MessageBuilder.tokens messageBuilder > limit)%Z
      then popMessage messageBuilder
      else historyLoop limit older
             (appendMessage (role historyMessage) (content historyMessage)
                messageBuilder)
  end.

(** The builder as [run] leaves it before the generation call. *)
Definition buildPrompt (svc : t) (messages : list AIChatMessage)
    (question : string) (results : list string) : Outcome MessageBuilder.t :=
  let systemMessage := SYSTEM_MESSAGE_PROMPT in
  let userMessage := userMessageOf question results in
  let messageBuilder :=
    appendMessage user userMessage
      (newBuilder systemMessage (azureOpenAiApiModelName (config svc))) in
  historyLoop (tokenLimit svc) (historyWalk messages) messageBuilder.

(** The processing details returned for debugging. *)
Definition thoughtsOf (query : string) (ms : list AIChatMessage) : string :=
  let conversation :=
    join (nl +:+ nl) (map (λ m, roleName (role m) +:+ ": " +:+ content m) ms) in
  breakLines
    ("Search query:" +:+ nl +:+ query +:+ nl +:+ nl
       +:+ "Conversation:" +:+ nl +:+ conversation).

Definition run (svc : t) (messages : list AIChatMessage)
    : Outcome AIChatCompletion :=
  let! query := lastContent messages in
  let! documents := similaritySearch (vectorStore svc) query 3 in
  let results := formatResults documents in
  let! messageBuilder := buildPrompt svc messages query results in
  let thoughts := thoughtsOf query (MessageBuilder.messages messageBuilder) in
  let! completion :=
    invoke (model svc) (MessageBuilder.getMessages messageBuilder) in
  Ok {| completionMessage := {| role := assistant; content := completion |};
        data_points := results;
        thoughts := thoughts |}.

End Service.
End ChatService.

(** ** Route handlers *)

Set Warnings "-register-all".

(** Values met when the routes use [fastify.chat] as a plain JS object. *)
Inductive JsValue :=
| VNumber (z : Z)
| VOpaque
| VCompletion (c : AIChatCompletion)
| VGenerator (chunks : list JsValue)
| VMethod (f : list AIChatMessage → Outcome JsValue).

(** What a handler sends. The stream body is produced lazily, so a failure
    of the generator is part of the body, not of the handler. *)
Inductive Reply :=
| SendCompletion (c : AIChatCompletion)
| SendNdJson (body : Outcome (list string))
| InternalServerError (msg : string).

(** A handler either settles with a reply or rejects with the exception
    that escaped it. *)
Inductive HandlerResult :=
| Replied (r : Reply)
| Rejected (e : JsError).


Module Routes.
Section Handlers.

Variable tokenCount : string → AIChatMessage → Z.
Variable guard : PopGuard.

(** [JSON.stringify], a builtin. *)
Variable stringify : JsValue → string.

Abbreviation run := (ChatService.run tokenCount guard).

(** The properties of a [ChatService] instance: its four fields and [run],
    the one method the class declares. The members every object inherits
    are left out; none of them is named [runWithStreaming]. *)
Definition chatObject (svc : ChatService.t) : gmap string JsValue :=
  list_to_map
    [ ("tokenLimit", VNumber (ChatService.tokenLimit svc));
      ("config", VOpaque);
      ("model", VOpaque);
      ("vectorStore", VOpaque);
      ("run", VMethod (λ messages,
                 let! completion := run svc messages in
                 Ok (VCompletion completion))) ].

(** [object.name(messages)]: calling a property that is missing, or that is
    not a function, throws a [TypeError]. *)
Definition callMethod (object : gmap string JsValue) (path name : string)
    (messages : list AIChatMessage) : Outcome JsValue :=
  match object !! name with
  | Some (VMethod f) => f messages
  | _ => Throw (TypeError (path +:+ "." +:+ name +:+ " is not a function"))
  end.

(** [const { messages } = request.body as any]: a request without a body
    leaves [request.body] undefined ([None]), which cannot be
    destructured. *)
Definition destructureMessages (body : option (list AIChatMessage))
    : Outcome (list AIChatMessage) :=
  match body with
  | Some messages => Ok messages
  | None =>
      Throw (TypeError
               "Cannot destructure property 'messages' of 'request.body' as it is undefined.")
  end.

(** [createNdJsonStream]: one line of JSON per chunk. *)
Definition createNdJsonStream (chunks : JsValue) : Outcome (list string) :=
  match chunks with
  | VGenerator cs => Ok (map (λ chunk, stringify chunk +:+ nl) cs)
  | _ => Throw (TypeError "chunks is not async iterable")
  end.

(** [POST /chat]. The handler threads the error log of [fastify.log]. *)
Definition chatHandler (svc : ChatService.t)
    (body : option (list AIChatMessage)) (log : list JsError)
    : list JsError * HandlerResult :=
  match destructureMessages body with
  | Throw e => (log, Rejected e)
  | Ok messages =>
      match run svc messages with
      | Ok completion => (log, Replied (SendCompletion completion))
      | Throw error => ((log ++ [error])%list, Replied (InternalServerError (message error)))
      end
  end.

(** [POST /chat/stream]. *)
Definition chatStreamHandler (svc : ChatService.t)
    (body : option (list AIChatMessage)) (log : list JsError)
    : list JsError * HandlerResult :=
  match destructureMessages body with
  | Throw e => (log, Rejected e)
  | Ok messages =>
      match callMethod (chatObject svc) "fastify.chat" "runWithStreaming" messages with
      | Ok stream => (log, Replied (SendNdJson (createNdJsonStream stream)))
      | Throw error => ((log ++ [error])%list, Replied (InternalServerError (message error)))
      end
  end.

End Handlers.
End Routes.

(** ** Vocabulary of the statements *)

Section Vocabulary.

Variable tokenCount : string → AIChatMessage → Z.
Variable guard : PopGuard.

(** The entry the builder holds for a system prompt. *)
Definition systemEntry (sys : string) : AIChatMessage :=
  {| role := system; content := sys |}.

(** The state invariant of a builder made for [sys] and [model]. *)
Record wellFormed (sys model : string) (b : MessageBuilder.t) : Prop := {
  wf_system : MessageBuilder.systemMessage b = sys;
  wf_model : MessageBuilder.tokenModel b = model;
  wf_head : MessageBuilder.messages b !! 0%nat = Some (systemEntry sys);
  wf_tokens :
    MessageBuilder.tokens b
    = MessageBuilder.sumTokens tokenCount model (MessageBuilder.messages b)
}.

(** Appending the messages of [walk] one after the other, first to last:
    what the loop has done to the builder after [length walk] iterations
    that did not break. *)
Definition appendHistory (walk : list AIChatMessage) (b : MessageBuilder.t)
    : MessageBuilder.t :=
  foldl (λ acc h, MessageBuilder.appendMessage tokenCount (role h) (content h) acc)
    b walk.

(** The builder [run] hands to the loop: the system prompt, then the question
    with its sources. *)
Definition startBuilder (svc : ChatService.t) (question : string)
    (results : list string) : MessageBuilder.t :=
  MessageBuilder.appendMessage tokenCount user
    (ChatService.userMessageOf question results)
    (MessageBuilder.new tokenCount SYSTEM_MESSAGE_PROMPT
       (azureOpenAiApiModelName (ChatService.config svc))).

(** The entry the builder holds for the question with its sources. *)
Definition userEntry (question : string) (results : list string) : AIChatMessage :=
  {| role := user; content := ChatService.userMessageOf question results |}.

(** The loop started from [b0] on [walk] stopped where [limit] tells:
    [result] is the builder after the appends of the whole walk when no
    shorter prefix of it brings the total above [limit], and otherwise the
    builder after the appends of the shortest prefix that does, popped
    once. *)
Definition truncatedAt (limit : Z) (walk : list AIChatMessage)
    (b0 : MessageBuilder.t) (result : Outcome MessageBuilder.t) : Prop :=
  ∃ (k : nat) (b : MessageBuilder.t),
    result = Ok b
    ∧ (k ≤ length walk)%nat
    ∧ Forall (λ j, (MessageBuilder.tokens (appendHistory (take j walk) b0)
                    ≤ limit)%Z) (seq 0 k)
    ∧ ((k = length walk ∧ b = appendHistory walk b0)
       ∨ ((k < length walk)%nat
          ∧ (MessageBuilder.tokens (appendHistory (take k walk) b0) > limit)%Z
          ∧ MessageBuilder.popMessage tokenCount guard
              (appendHistory (take k walk) b0) = Ok b)).

End Vocabulary.

(** The error of calling the method the class does not have. *)
Definition noStreamingMethod : JsError :=
  TypeError "fastify.chat.runWithStreaming is not a function".

(** The error of reading the content of the last message of an empty
    conversation. *)
Definition emptyConversationError : JsError :=
  TypeError "Cannot read properties of undefined (reading 'content')".

(** How often the character [c] occurs in [s]. *)
Fixpoint countChar (c : ascii) (s : string) : nat :=
  match s with
  | EmptyString => 0
  | String c' s' => (if bool_decide (c' = c) then 1 else 0) + countChar c s'
  end.

(** Whether [s] holds a line feed or a carriage return. *)
Fixpoint hasLineBreak (s : string) : bool :=
  match s with
  | EmptyString => false
  | String c s' => isLineBreak c || hasLineBreak s'
  end.

(** ** The upload script *)

(** The shell script of the repository that sends every PDF file of
    [./data] to the ingestion API with [curl]. *)
Module UploadScript.

(** What the script does, in order: a line written by [echo], or a call
    [curl -F "file=@<file>" <endpoint>]. The exit status of [curl] is not
    read by the script. *)
Inductive Event :=
| Echo (line : string)
| Curl (file endpoint : string).

(** What the script finds when it runs. *)
Record Env := {
  (** [azd env get-values] exits with status 0 *)
  azdSucceeds : bool;
  (** [INGESTION_API_URI] when [API_ENDPOINT] is assigned, if set *)
  ingestionApiUri : option string;
  (** [[ -d ./data ]] *)
  dataIsDirectory : bool;
  (** the words [./data/*.pdf] expands to, each with its [[ -f ]] test; when
      nothing matches, the one word is the pattern itself *)
  pdfWords : list (string * bool)
}.

Definition DATA_DIR : string := "./data".

(** ["${INGESTION_API_URI:-http://localhost:3001}/documents"]: the default
    is used when the variable is unset or empty. *)
Definition API_ENDPOINT (uri : option string) : string :=
  match uri with
  | Some (String c rest) => String c rest +:+ "/documents"
  | _ => "http://localhost:3001/documents"
  end.

(** [basename] of a path that does not end with a slash: what follows the
    last slash. [acc] is the part read since the last slash. *)
Fixpoint basenameFrom (acc path : string) : string :=
  match path with
  | EmptyString => acc
  | String c rest =>
      if bool_decide (c = "/"%char) then basenameFrom EmptyString rest
      else basenameFrom (acc +:+ String c EmptyString) rest
  end.

Definition basename (path : string) : string := basenameFrom EmptyString path.

(** The [for] loop; [count] is [PDF_COUNT]. *)
Fixpoint uploadLoop (endpoint : string) (words : list (string * bool))
    (count : nat) : list Event * nat :=
  match words with
  | [] => ([], count)
  | (pdf_file, isFile) :: rest =>
      if isFile
      then
        let '(events, final) := uploadLoop endpoint rest (count + 1) in
        (Echo ("Uploading: " +:+ basename pdf_file)
           :: Curl pdf_file endpoint :: Echo "" :: events,
         final)
      else uploadLoop endpoint rest count
  end.

(** The whole script: its events and its exit status. *)
Definition main (env : Env) : list Event * Z :=
  let loading :=
    if azdSucceeds env
    then [Echo "Loading azd .env file from current environment"]
    else [] in
  let banner := [Echo "Uploading PDF files to the ingestion API"] in
  let endpoint := API_ENDPOINT (ingestionApiUri env) in
  if negb (dataIsDirectory env)
  then
    ((loading ++ banner
        ++ [Echo ("Error: Data directory '" +:+ DATA_DIR +:+ "' not found")])%list,
     1%Z)
  else
    let '(events, PDF_COUNT) := uploadLoop endpoint (pdfWords env) 0 in
    if bool_decide (PDF_COUNT = 0%nat)
    then
      ((loading ++ banner ++ events
          ++ [Echo ("No PDF files found in " +:+ DATA_DIR)])%list,
       1%Z)
    else
      ((loading ++ banner ++ events
          ++ [Echo ("Successfully processed " +:+ pretty PDF_COUNT
                      +:+ " PDF files")])%list,
       0%Z).

(** The [curl] calls among the events, in order. *)
Definition curlCalls (events : list Event) : list (string * string) :=
  omap (λ e, match e with Curl f u => Some (f, u) | Echo _ => None end) events.

(** The files among the words. *)
Definition regularFiles (words : list (string * bool)) : list string :=
  (filter (λ w, snd w = true) words).*1.

(** The events of one upload: the announcement, the call and the empty
    line after the response. *)
Definition uploadOf (endpoint file : string) : list Event :=
  [Echo ("Uploading: " +:+ basename file); Curl file endpoint; Echo ""].

End UploadScript.

(** ** Worked inputs *)

Module Fixture.

(** A stand-in tokenizer for the worked inputs: four tokens of per-message
    overhead and one token per character of content. *)
Definition charTokens (_ : string) (m : AIChatMessage) : Z :=
  4 + Z.of_nat (String.length (content m)).

Fixpoint repeatChar (c : ascii) (n : nat) : string :=
  match n with
  | O => EmptyString
  | S n' => String c (repeatChar c n')
  end.

Definition quietModel : BaseChatModel := {| invoke := λ _, Ok "Drink water. [doc.pdf]" |}.
Definition emptyStore : VectorStore := {| similaritySearch := λ _ _, Ok [] |}.

Definition outage : JsError := {| errName := "Error"; message := "service unavailable" |}.
Definition failingStore : VectorStore := {| similaritySearch := λ _ _, Throw outage |}.

(** A model that answers with the roles of the messages it was given. *)
Definition echoModel : BaseChatModel :=
  {| invoke := λ ms, Ok (join "," (map (λ m, roleName (role m)) ms)) |}.

Definition appConfig : AppConfig := {| azureOpenAiApiModelName := "gpt-4o-mini" |}.

(** The service as the plugin builds it, with the default token limit. *)
Definition service : ChatService.t := ChatService.new appConfig quietModel emptyStore.
Definition serviceDown : ChatService.t := ChatService.new appConfig quietModel failingStore.
Definition serviceEcho : ChatService.t := ChatService.new appConfig echoModel emptyStore.

Definition question : AIChatMessage := {| role := user; content := "How much water?" |}.
Definition shortTurn : AIChatMessage := {| role := user; content := "Hi coach" |}.
Definition shortReply : AIChatMessage := {| role := assistant; content := "Hello!" |}.

(** A turn of 4000 characters, and a question of 4000 characters. *)
Definition longTurn : AIChatMessage :=
  {| role := user; content := repeatChar "a"%char 4000 |}.
Definition longQuestion : AIChatMessage :=
  {| role := user; content := repeatChar "q"%char 4000 |}.

End Fixture.

(** * Properties *)

(** ** The builder on its own *)

Section BuilderFacts.

Variable tokenCount : string → AIChatMessage → Z.
Variable guard : PopGuard.

Import MessageBuilder.

Abbreviation sumOf := (sumTokens tokenCount).
Abbreviation append := (MessageBuilder.appendMessage tokenCount).
Abbreviation pop := (MessageBuilder.popMessage tokenCount guard).
Abbreviation wf := (wellFormed tokenCount).

Lemma sumTokens_snoc model (ms : list AIChatMessage) m :
  sumOf model (ms ++ [m]) = (sumOf model ms + tokenCount model m)%Z.
Proof.
  induction ms as [|m' ms IH]; simpl; [lia|].
  fold (sumOf model (ms ++ [m])). rewrite IH. fold (sumOf model ms). lia.
Qed.

Lemma sumTokens_insert model (ms : list AIChatMessage) m :
  sumOf model (take 1 ms ++ m :: drop 1 ms)
  = (sumOf model ms + tokenCount model m)%Z.
Proof.
  destruct ms as [|m0 ms]; simpl; [lia|]. rewrite drop_0.
  fold (sumOf model ms). lia.
Qed.

Lemma sumTokens_delete model (ms : list AIChatMessage) i m :
  ms !! i = Some m →
  sumOf model (delete i ms) = (sumOf model ms - tokenCount model m)%Z.
Proof.
  revert i. induction ms as [|m' ms IH]; intros [|i] Hi; simplify_eq/=.
  - fold (sumOf model ms). lia.
  - fold (sumOf model (delete i ms)). rewrite (IH _ Hi).
    fold (sumOf model ms). lia.
Qed.

Lemma wellFormed_new sys model : wf sys model (MessageBuilder.new tokenCount sys model).
Proof. split; simpl; try done. unfold systemEntry. lia. Qed.

Lemma wellFormed_append sys model b r c :
  wf sys model b → wf sys model (append r c b).
Proof.
  intros [Hs Hm Hh Ht]. split; simpl; try done.
  - destruct (messages b) as [|m0 rest]; simplify_eq/=. done.
  - rewrite sumTokens_insert, Hm, Ht. done.
Qed.

Lemma wellFormed_pop sys model b b' :
  wf sys model b → pop b = Ok b' → wf sys model b'.
Proof.
  intros Hwf. pose proof Hwf as [Hs Hm Hh Ht]. unfold popMessage.
  destruct (messages b !! 1%nat) as [m|] eqn:H1.
  - intros [= <-]. split; simpl; try done.
    + destruct (messages b) as [|m0 rest]; simplify_eq/=. done.
    + rewrite (sumTokens_delete _ _ _ _ H1), Hm, Ht. done.
  - destruct guard; intros [= <-]; done.
Qed.

Lemma wellFormed_step sys model b o :
  wf sys model b → wf sys model (step tokenCount guard b o).
Proof.
  intros Hwf. destruct o as [r c|]; simpl.
  - by apply wellFormed_append.
  - destruct (pop b) as [b'|e] eqn:Hp; [|done].
    by eapply wellFormed_pop.
Qed.

Lemma wellFormed_exec sys model ops b :
  wf sys model b → wf sys model (exec tokenCount guard ops b).
Proof.
  revert b. induction ops as [|o ops IH]; intros b Hwf; simpl; [done|].
  apply IH. by apply wellFormed_step.
Qed.

Lemma pop_without_history b :
  length (messages b) < 2 → pop b = Ok b ∨ pop b = Throw popError.
Proof.
  intros Hlen. unfold popMessage.
  rewrite (lookup_ge_None_2 (messages b) 1) by lia.
  destruct guard; auto.
Qed.

End BuilderFacts.

Section BuilderClaims.

Variable tokenCount : string → AIChatMessage → Z.
Variable guard : PopGuard.

Import MessageBuilder.

(** C7. After any sequence of [appendMessage] and [popMessage] calls on a
    fresh builder, [messages[0]] is the system message, so the sequence is
    never empty; and a [popMessage] issued while no other message is present
    is a no-op or fails. *)
Theorem system_message_stays_first (sys model : string) (ops : list Op) :
  let b := exec tokenCount guard ops (new tokenCount sys model) in
  messages b !! 0%nat = Some (systemEntry sys)
  ∧ messages b ≠ []
  ∧ ((2 ≤ length (messages b))%nat
     ∨ popMessage tokenCount guard b = Ok b
     ∨ popMessage tokenCount guard b = Throw popError).
Proof.
  intros b.
  assert (Hwf : wellFormed tokenCount sys model b)
    by apply wellFormed_exec, wellFormed_new.
  pose proof (wf_head _ _ _ _ Hwf) as Hh.
  split; [done|]. split.
  - intros Hnil. rewrite Hnil in Hh. done.
  - destruct (decide (2 ≤ length (messages b))%nat) as [|Hlt]; [by left|right].
    apply pop_without_history. lia.
Qed.

(** C8. After construction and any sequence of [appendMessage] and
    [popMessage] calls, [tokens] is the sum of the estimated token counts of
    the messages currently held, the system message included. *)
Theorem tokens_is_sum_of_estimates (sys model : string) (ops : list Op) :
  let b := exec tokenCount guard ops (new tokenCount sys model) in
  tokens b = sumTokens tokenCount model (messages b).
Proof.
  intros b. apply (wf_tokens tokenCount sys model).
  apply wellFormed_exec, wellFormed_new.
Qed.

(** C9. On a builder holding at least one message after the system message,
    [popMessage] succeeds, and appending again a message with the role and
    content of the removed one brings [tokens] back to its value before the
    pop. *)
Theorem pop_then_append_restores_tokens (b : MessageBuilder.t) (m : AIChatMessage) :
  messages b !! 1%nat = Some m →
  ∃ b', popMessage tokenCount guard b = Ok b'
        ∧ tokens (appendMessage tokenCount (role m) (content m) b') = tokens b.
Proof.
  intros H1. unfold popMessage. rewrite H1. eexists. split; [done|].
  destruct m as [r c]. simpl. lia.
Qed.

End BuilderClaims.

Lemma pop_then_append_restores_tokens_witness :
  let b := MessageBuilder.appendMessage Fixture.charTokens user "How much water?"
             (MessageBuilder.new Fixture.charTokens "Be brief." "gpt-4o-mini") in
  MessageBuilder.messages b !! 1%nat = Some Fixture.question
  ∧ ∃ b', MessageBuilder.popMessage Fixture.charTokens PopFails b = Ok b'
          ∧ MessageBuilder.tokens
              (MessageBuilder.appendMessage Fixture.charTokens user "How much water?" b')
            = MessageBuilder.tokens b.
Proof.
  intros b. split; [reflexivity|].
  apply (pop_then_append_restores_tokens Fixture.charTokens PopFails b Fixture.question).
  reflexivity.
Defined.

(** ** The truncation loop *)

Section LoopFacts.

Variable tokenCount : string → AIChatMessage → Z.
Variable guard : PopGuard.

Import MessageBuilder.

Abbreviation appendTo := (MessageBuilder.appendMessage tokenCount).
Abbreviation popFrom := (MessageBuilder.popMessage tokenCount guard).
Abbreviation loop := (ChatService.historyLoop tokenCount guard).
Abbreviation history := (appendHistory tokenCount).
Abbreviation start := (startBuilder tokenCount).

Lemma message_eta (m : AIChatMessage) : {| role := role m; content := content m |} = m.
Proof. by destruct m. Qed.

(** After the appends of [walk], its messages sit between the head and the
    earlier entries, the last appended first. *)
Lemma messages_appendHistory walk b m0 rest :
  messages b = m0 :: rest →
  messages (history walk b) = (m0 :: reverse walk ++ rest)%list.
Proof.
  revert b rest. induction walk as [|h walk IH]; intros b rest Hb.
  - exact Hb.
  - change (history (h :: walk) b)
      with (history walk (appendTo (role h) (content h) b)).
    rewrite (IH _ (h :: rest)).
    + by rewrite reverse_cons, <- app_assoc.
    + simpl. rewrite Hb, message_eta. done.
Qed.

Lemma appendHistory_cons h walk b :
  history (h :: walk) b = history walk (appendTo (role h) (content h) b).
Proof. done. Qed.

(** The loop appends a prefix of the walk, the shortest one after which the
    running total is above the limit when there is one, and then pops once;
    otherwise it appends the whole walk and does not pop. *)
Lemma historyLoop_characterised limit walk b :
  ∃ k : nat,
    (k ≤ length walk)%nat
    ∧ Forall (λ j, (tokens (history (take j walk) b) ≤ limit)%Z) (seq 0 k)
    ∧ ((k = length walk ∧ loop limit walk b = Ok (history walk b))
       ∨ ((k < length walk)%nat
          ∧ (tokens (history (take k walk) b) > limit)%Z
          ∧ loop limit walk b = popFrom (history (take k walk) b))).
Proof.
  revert b. induction walk as [|h older IH]; intros b.
  - exists 0%nat. simpl. repeat split; [lia|constructor|]. by left.
  - simpl. case_bool_decide as Hover.
    + exists 0%nat. repeat split; [lia|constructor|]. right.
      repeat split; [lia|done].
    + destruct (IH (appendTo (role h) (content h) b))
        as (k & Hk & Hfit & Hend).
      exists (S k). split; [lia|]. split.
      * rewrite <- cons_seq. constructor; [simpl; lia|].
        rewrite <- fmap_S_seq. apply Forall_fmap.
        eapply Forall_impl; [exact Hfit|]. intros j Hj. exact Hj.
      * destruct Hend as [[-> Hall]|(Hlt & Hbig & Hpop)].
        -- left. split; [done|]. exact Hall.
        -- right. repeat split; [lia|exact Hbig|exact Hpop].
Qed.

Lemma historyWalk_snoc (hist : list AIChatMessage) q :
  ChatService.historyWalk (hist ++ [q]) = reverse hist.
Proof.
  unfold ChatService.historyWalk. rewrite length_app. simpl.
  replace (length hist + 1 - 1)%nat with (length hist) by lia.
  by rewrite take_app_length.
Qed.

Lemma messages_startBuilder svc question results :
  messages (start svc question results)
  = [systemEntry SYSTEM_MESSAGE_PROMPT; userEntry question results].
Proof. done. Qed.

Lemma messages_after_start svc question results walk :
  messages (history walk (start svc question results))
  = (systemEntry SYSTEM_MESSAGE_PROMPT
       :: reverse walk ++ [userEntry question results])%list.
Proof. apply messages_appendHistory, messages_startBuilder. Qed.

(** In [run] the pop always finds a message at index 1: the question was
    appended before the loop. *)
Lemma pop_after_start svc question results walk :
  ∃ b, popFrom (history walk (start svc question results)) = Ok b
       ∧ messages b
         = (systemEntry SYSTEM_MESSAGE_PROMPT
              :: drop 1 (reverse walk ++ [userEntry question results]))%list.
Proof.
  unfold popMessage. rewrite messages_after_start.
  destruct (reverse walk ++ [userEntry question results])%list
    as [|x rest] eqn:Htail.
  - by apply app_nil in Htail as [_ ?].
  - simpl. eexists. split; [done|]. simpl. by rewrite drop_0.
Qed.

End LoopFacts.

Section LoopClaims.

Variable tokenCount : string → AIChatMessage → Z.
Variable guard : PopGuard.

Import MessageBuilder.

Abbreviation prompt := (ChatService.buildPrompt tokenCount guard).
Abbreviation start := (startBuilder tokenCount).
Abbreviation history := (appendHistory tokenCount).

Lemma buildPrompt_unfold svc messages question results :
  prompt svc messages question results
  = ChatService.historyLoop tokenCount guard (ChatService.tokenLimit svc)
      (ChatService.historyWalk messages) (start svc question results).
Proof. done. Qed.

(** The messages [run] passes to the generation call are those of the
    builder [buildPrompt] returns. *)
Lemma run_generation_input svc messages query documents b :
  ChatService.lastContent messages = Ok query →
  similaritySearch (ChatService.vectorStore svc) query 3 = Ok documents →
  prompt svc messages query (ChatService.formatResults documents) = Ok b →
  ChatService.run tokenCount guard svc messages
  = let! completion := invoke (ChatService.model svc) (getMessages b) in
    Ok {| completionMessage := {| role := assistant; content := completion |};
          data_points := ChatService.formatResults documents;
          thoughts := ChatService.thoughtsOf query (MessageBuilder.messages b) |}.
Proof.
  intros Hq Hd Hb. unfold ChatService.run. rewrite Hq. simpl.
  rewrite Hd. simpl. rewrite Hb. done.
Qed.

(** C1 (the code at the failing input). When the question fits the limit and
    the single history message does not fit on top of it, the loop appends
    that message and ends without testing the total again: the message stays
    in the final sequence and the total stays above the limit. *)
Theorem last_history_overflow_is_kept svc (h q : AIChatMessage) question results :
  let model := azureOpenAiApiModelName (ChatService.config svc) in
  (tokens (start svc question results) ≤ ChatService.tokenLimit svc)%Z →
  (tokens (start svc question results) + tokenCount model h
     > ChatService.tokenLimit svc)%Z →
  ∃ b, prompt svc [h; q] question results = Ok b
       ∧ getMessages b
         = [systemEntry SYSTEM_MESSAGE_PROMPT; h; userEntry question results]
       ∧ (tokens b > ChatService.tokenLimit svc)%Z.
Proof.
  intros model Hfit Hover. rewrite buildPrompt_unfold.
  change (ChatService.historyWalk [h; q]) with [h].
  cbn [ChatService.historyLoop].
  rewrite bool_decide_false by lia.
  eexists. split; [reflexivity|]. split.
  - unfold getMessages. cbn [messages appendMessage].
    rewrite message_eta, messages_startBuilder. reflexivity.
  - cbn [tokens appendMessage]. rewrite message_eta.
    change (tokenModel (start svc question results)) with model. lia.
Qed.

(** C3 (the code at the failing input). When the question with its sources
    is already above the limit and there is at least one earlier turn, the
    first iteration pops: the only message after the system message is the
    question, and the final sequence is the system message alone. *)
Theorem oversized_question_is_popped svc (hist : list AIChatMessage)
    (h q : AIChatMessage) question results :
  (tokens (start svc question results) > ChatService.tokenLimit svc)%Z →
  ∃ b, prompt svc (hist ++ [h; q]) question results = Ok b
       ∧ getMessages b = [systemEntry SYSTEM_MESSAGE_PROMPT]
       ∧ userEntry question results ∉ getMessages b.
Proof.
  intros Hover. rewrite buildPrompt_unfold.
  replace (hist ++ [h; q])%list with ((hist ++ [h]) ++ [q])%list
    by (by rewrite <- app_assoc).
  rewrite historyWalk_snoc, reverse_snoc.
  cbn [ChatService.historyLoop].
  rewrite bool_decide_true by exact Hover.
  destruct (pop_after_start tokenCount guard svc question results [])
    as (b & Hb & Hms).
  exists b. split; [exact Hb|]. unfold getMessages. rewrite Hms.
  split; [reflexivity|].
  rewrite list_elem_of_singleton. discriminate.
Qed.

(** C5. The loop walks the history reversed, the current question excluded.
    It appends the first [k] messages of that walk, in that order, where no
    shorter prefix brought the total above the limit; when [k] is not the
    whole walk the total after those [k] appends is above the limit and the
    only further operation is one [popMessage]: no older message is
    appended, whatever its size. *)
Theorem history_walk_stops_at_first_overflow svc (hist : list AIChatMessage)
    (q : AIChatMessage) question results :
  let walk := reverse hist in
  let limit := ChatService.tokenLimit svc in
  let b0 := start svc question results in
  ChatService.historyWalk (hist ++ [q]) = walk
  ∧ ∃ (k : nat) (b : MessageBuilder.t),
      prompt svc (hist ++ [q]) question results = Ok b
      ∧ (k ≤ length walk)%nat
      ∧ Forall (λ j, (tokens (history (take j walk) b0) ≤ limit)%Z) (seq 0 k)
      ∧ ((k = length walk ∧ b = history walk b0)
         ∨ ((k < length walk)%nat
            ∧ (tokens (history (take k walk) b0) > limit)%Z
            ∧ popMessage tokenCount guard (history (take k walk) b0) = Ok b)).
Proof.
  intros walk limit b0. split; [apply historyWalk_snoc|].
  rewrite buildPrompt_unfold, historyWalk_snoc. fold walk limit b0.
  destruct (historyLoop_characterised tokenCount guard limit walk b0)
    as (k & Hk & Hfit & [[-> Hall]|(Hlt & Hbig & Hpop)]).
  - exists (length walk), (history walk b0).
    split; [exact Hall|]. split; [done|]. split; [exact Hfit|]. by left.
  - destruct (pop_after_start tokenCount guard svc question results (take k walk))
      as (b & Hb & _).
    exists k, b. fold b0 in Hb.
    split; [by rewrite Hpop|]. split; [done|]. split; [exact Hfit|].
    right. done.
Qed.


(** C2 (the code at the failing input). When the question with its sources
    is already above the limit and there is at least one earlier turn, the
    sequence handed to the generation call is the system message alone: it
    does not end with the current user turn, whatever history is taken as
    included. *)
Theorem oversized_question_leaves_no_user_turn svc (hist : list AIChatMessage)
    (h q : AIChatMessage) question results :
  (tokens (start svc question results) > ChatService.tokenLimit svc)%Z →
  ∃ b, prompt svc (hist ++ [h; q]) question results = Ok b
       ∧ getMessages b = [systemEntry SYSTEM_MESSAGE_PROMPT]
       ∧ ¬ ∃ included : list AIChatMessage,
             getMessages b
             = (systemEntry SYSTEM_MESSAGE_PROMPT
                  :: included ++ [userEntry question results])%list.
Proof.
  intros Hover. rewrite buildPrompt_unfold.
  replace (hist ++ [h; q])%list with ((hist ++ [h]) ++ [q])%list
    by (by rewrite <- app_assoc).
  rewrite historyWalk_snoc, reverse_snoc.
  cbn [ChatService.historyLoop].
  rewrite bool_decide_true by exact Hover.
  destruct (pop_after_start tokenCount guard svc question results [])
    as (b & Hb & Hms).
  exists b. split; [exact Hb|]. unfold getMessages. rewrite Hms.
  split; [reflexivity|].
  intros [included Heq]. apply (f_equal length) in Heq.
  simpl in Heq. rewrite length_app in Heq. simpl in Heq. lia.
Qed.


End LoopClaims.

Lemma last_history_overflow_is_kept_witness :
  let svc := Fixture.service in
  let b0 := startBuilder Fixture.charTokens svc "How much water?" [] in
  (MessageBuilder.tokens b0 ≤ ChatService.tokenLimit svc)%Z
  ∧ (MessageBuilder.tokens b0 + Fixture.charTokens "gpt-4o-mini" Fixture.longTurn
       > ChatService.tokenLimit svc)%Z
  ∧ ∃ b, ChatService.buildPrompt Fixture.charTokens PopNoOp svc
           [Fixture.longTurn; Fixture.question] "How much water?" [] = Ok b
         ∧ MessageBuilder.getMessages b
           = [systemEntry SYSTEM_MESSAGE_PROMPT; Fixture.longTurn;
              userEntry "How much water?" []]
         ∧ (MessageBuilder.tokens b > ChatService.tokenLimit svc)%Z.
Proof.
  intros svc b0.
  assert (Hfit : (MessageBuilder.tokens b0 ≤ ChatService.tokenLimit svc)%Z)
    by (vm_compute; discriminate).
  assert (Hover : (MessageBuilder.tokens b0
                     + Fixture.charTokens "gpt-4o-mini" Fixture.longTurn
                   > ChatService.tokenLimit svc)%Z)
    by (vm_compute; reflexivity).
  split; [exact Hfit|]. split; [exact Hover|].
  exact (last_history_overflow_is_kept Fixture.charTokens PopNoOp svc
           Fixture.longTurn Fixture.question "How much water?" [] Hfit Hover).
Defined.

Lemma oversized_question_is_popped_witness :
  let svc := Fixture.service in
  let ask := content Fixture.longQuestion in
  (MessageBuilder.tokens (startBuilder Fixture.charTokens svc ask [])
     > ChatService.tokenLimit svc)%Z
  ∧ ∃ b, ChatService.buildPrompt Fixture.charTokens PopNoOp svc
           ([] ++ [Fixture.shortTurn; Fixture.longQuestion]) ask [] = Ok b
         ∧ MessageBuilder.getMessages b = [systemEntry SYSTEM_MESSAGE_PROMPT]
         ∧ userEntry ask [] ∉ MessageBuilder.getMessages b.
Proof.
  intros svc ask.
  assert (Hover : (MessageBuilder.tokens (startBuilder Fixture.charTokens svc ask [])
                   > ChatService.tokenLimit svc)%Z)
    by (vm_compute; reflexivity).
  split; [exact Hover|].
  exact (oversized_question_is_popped Fixture.charTokens PopNoOp svc []
           Fixture.shortTurn Fixture.longQuestion ask [] Hover).
Defined.

Lemma oversized_question_leaves_no_user_turn_witness :
  let svc := Fixture.service in
  let ask := content Fixture.longQuestion in
  (MessageBuilder.tokens (startBuilder Fixture.charTokens svc ask [])
     > ChatService.tokenLimit svc)%Z
  ∧ ∃ b, ChatService.buildPrompt Fixture.charTokens PopNoOp svc
           ([] ++ [Fixture.shortTurn; Fixture.longQuestion]) ask [] = Ok b
         ∧ MessageBuilder.getMessages b = [systemEntry SYSTEM_MESSAGE_PROMPT]
         ∧ ¬ ∃ included : list AIChatMessage,
               MessageBuilder.getMessages b
               = (systemEntry SYSTEM_MESSAGE_PROMPT
                    :: included ++ [userEntry ask []])%list.
Proof.
  intros svc ask.
  assert (Hover : (MessageBuilder.tokens (startBuilder Fixture.charTokens svc ask [])
                   > ChatService.tokenLimit svc)%Z)
    by (vm_compute; reflexivity).
  split; [exact Hover|].
  exact (oversized_question_leaves_no_user_turn Fixture.charTokens PopNoOp svc []
           Fixture.shortTurn Fixture.longQuestion ask [] Hover).
Defined.

(** ** The token limit *)

Section LimitClaims.

Variable tokenCount : string → AIChatMessage → Z.
Variable guard : PopGuard.

Lemma buildPrompt_truncatedAt svc (hist : list AIChatMessage)
    (q : AIChatMessage) question results :
  truncatedAt tokenCount guard (ChatService.tokenLimit svc) (reverse hist)
    (startBuilder tokenCount svc question results)
    (ChatService.buildPrompt tokenCount guard svc (hist ++ [q]) question results).
Proof.
  rewrite buildPrompt_unfold, historyWalk_snoc. unfold truncatedAt.
  set (walk := reverse hist).
  set (b0 := startBuilder tokenCount svc question results).
  destruct (historyLoop_characterised tokenCount guard
              (ChatService.tokenLimit svc) walk b0)
    as (k & Hk & Hfit & [[-> Hall]|(Hlt & Hbig & Hpop)]).
  - exists (length walk), (appendHistory tokenCount walk b0).
    split; [exact Hall|]. split; [done|]. split; [exact Hfit|]. by left.
  - destruct (pop_after_start tokenCount guard svc question results (take k walk))
      as (b & Hb & _).
    exists k, b. fold b0 in Hb.
    split; [by rewrite Hpop|]. split; [done|]. split; [exact Hfit|].
    right. done.
Qed.

(** C4. The budget of the truncation loop is the integer held by the
    [tokenLimit] field of the service, and a service is created with 4000:
    the loop of a freshly created service stops at the first prefix of the
    history walk that brings the running total above 4000, and the loop of
    any service stops at the first prefix that brings it above the value its
    field holds. The builder is made without that value. *)
Theorem token_limit_is_the_loop_budget_and_defaults_to_4000
    (cfg : AppConfig) (m : BaseChatModel) (store : VectorStore)
    (svc : ChatService.t) (hist : list AIChatMessage) (q : AIChatMessage)
    (question : string) (results : list string) :
  let fresh := ChatService.new cfg m store in
  ChatService.tokenLimit fresh = 4000%Z
  ∧ truncatedAt tokenCount guard 4000 (reverse hist)
      (startBuilder tokenCount fresh question results)
      (ChatService.buildPrompt tokenCount guard fresh (hist ++ [q])
         question results)
  ∧ truncatedAt tokenCount guard (ChatService.tokenLimit svc) (reverse hist)
      (startBuilder tokenCount svc question results)
      (ChatService.buildPrompt tokenCount guard svc (hist ++ [q])
         question results).
Proof.
  intros fresh. split; [reflexivity|]. split.
  - exact (buildPrompt_truncatedAt fresh hist q question results).
  - apply buildPrompt_truncatedAt.
Qed.

End LimitClaims.

(** ** The routes *)

Section RouteClaims.

Variable tokenCount : string → AIChatMessage → Z.
Variable guard : PopGuard.
Variable stringify : JsValue → string.

Abbreviation chat := (Routes.chatHandler tokenCount guard).
Abbreviation chatStream := (Routes.chatStreamHandler tokenCount guard stringify).

Lemma runWithStreaming_missing svc :
  Routes.chatObject tokenCount guard svc !! "runWithStreaming" = None.
Proof. reflexivity. Qed.

Lemma chatStream_always_catches svc (messages : list AIChatMessage) log :
  chatStream svc (Some messages) log
  = ((log ++ [noStreamingMethod])%list,
     Replied (InternalServerError (message noStreamingMethod))).
Proof.
  unfold Routes.chatStreamHandler, Routes.callMethod. simpl.
  rewrite runWithStreaming_missing. reflexivity.
Qed.

Lemma chat_catches svc (messages : list AIChatMessage) log e :
  ChatService.run tokenCount guard svc messages = Throw e →
  chat svc (Some messages) log
  = ((log ++ [e])%list, Replied (InternalServerError (message e))).
Proof. intros Hrun. unfold Routes.chatHandler. simpl. by rewrite Hrun. Qed.


(** C10. On [POST /chat], when the retrieval call rejects, or retrieval
    succeeds and the generation call rejects, the handler logs the error and
    replies with an internal server error carrying the error's message; the
    exception does not escape the handler. [POST /chat/stream] replies with
    an internal server error as well, whatever the two calls would do. *)
Theorem upstream_failure_becomes_internal_server_error svc
    (messages : list AIChatMessage) (query : string) log (e : JsError) :
  ChatService.lastContent messages = Ok query →
  (similaritySearch (ChatService.vectorStore svc) query 3 = Throw e
   ∨ ∃ documents b,
       similaritySearch (ChatService.vectorStore svc) query 3 = Ok documents
       ∧ ChatService.buildPrompt tokenCount guard svc messages query
           (ChatService.formatResults documents) = Ok b
       ∧ invoke (ChatService.model svc) (MessageBuilder.getMessages b) = Throw e) →
  chat svc (Some messages) log
    = ((log ++ [e])%list, Replied (InternalServerError (message e)))
  ∧ ∃ e', chatStream svc (Some messages) log
          = ((log ++ [e'])%list, Replied (InternalServerError (message e'))).
Proof.
  intros Hq Hfail. split.
  - apply chat_catches.
    destruct Hfail as [Hsearch|(documents & b & Hsearch & Hb & Hinvoke)].
    + unfold ChatService.run. rewrite Hq. simpl. by rewrite Hsearch.
    + rewrite (run_generation_input _ _ _ _ _ _ _ Hq Hsearch Hb).
      by rewrite Hinvoke.
  - exists noStreamingMethod. apply chatStream_always_catches.
Qed.

End RouteClaims.

Lemma upstream_failure_becomes_internal_server_error_witness :
  let svc := Fixture.serviceDown in
  ChatService.lastContent [Fixture.question] = Ok "How much water?"
  ∧ similaritySearch (ChatService.vectorStore svc) "How much water?" 3
    = Throw Fixture.outage
  ∧ Routes.chatHandler Fixture.charTokens PopNoOp svc (Some [Fixture.question]) []
    = ([Fixture.outage], Replied (InternalServerError "service unavailable")).
Proof.
  intros svc.
  assert (Hq : ChatService.lastContent [Fixture.question] = Ok "How much water?")
    by reflexivity.
  assert (Hsearch : similaritySearch (ChatService.vectorStore svc)
                      "How much water?" 3 = Throw Fixture.outage)
    by reflexivity.
  split; [exact Hq|]. split; [exact Hsearch|].
  exact (proj1 (upstream_failure_becomes_internal_server_error
                  Fixture.charTokens PopNoOp (λ _, "{}") svc [Fixture.question]
                  "How much water?" [] Fixture.outage Hq (or_introl Hsearch))).
Defined.

(** ** Whole runs on the worked inputs *)

(** One long earlier turn and a short question: the generation call receives
    the system message, the question and the long turn. *)
Example run_keeps_the_overflowing_turn :
  ∃ c, ChatService.run Fixture.charTokens PopNoOp Fixture.serviceEcho
         [Fixture.longTurn; Fixture.question] = Ok c
       ∧ completionMessage c = {| role := assistant; content := "system,user,user" |}.
Proof. eexists. split; [vm_compute; reflexivity|reflexivity]. Qed.

(** One earlier turn and a question above the limit: the generation call
    receives the system message alone. *)
Example run_drops_the_oversized_question :
  ∃ c, ChatService.run Fixture.charTokens PopNoOp Fixture.serviceEcho
         [Fixture.shortTurn; Fixture.longQuestion] = Ok c
       ∧ completionMessage c = {| role := assistant; content := "system" |}.
Proof. eexists. split; [vm_compute; reflexivity|reflexivity]. Qed.

(** An empty conversation has no question to read: [run] throws, and the
    [/chat] handler replies with an internal server error. *)
Example chat_on_empty_conversation :
  Routes.chatHandler Fixture.charTokens PopNoOp Fixture.service (Some []) []
  = ([TypeError "Cannot read properties of undefined (reading 'content')"],
     Replied (InternalServerError
                "Cannot read properties of undefined (reading 'content')")).
Proof. reflexivity. Qed.

(** The system prompt has the length of the template literal. *)
Example system_prompt_length : String.length SYSTEM_MESSAGE_PROMPT = 820%nat.
Proof. reflexivity. Qed.

(** Line breaks inside a retrieved passage collapse to single spaces. *)
Example formatResults_collapses_breaks :
  ChatService.formatResults
    [{| source := "plan.pdf"; pageContent := "Warm up" +:+ nl +:+ nl +:+ "Run" |}]
  = ["plan.pdf: Warm up Run"].
Proof. reflexivity. Qed.

(** * Further properties of the code *)

(** ** Text helpers *)

Lemma countChar_app c (a b : string) :
  countChar c (a +:+ b) = (countChar c a + countChar c b)%nat.
Proof. induction a as [|c' a IH]; simpl; [done|]. rewrite IH. lia. Qed.

Lemma length_app_string (a b : string) :
  String.length (a +:+ b) = (String.length a + String.length b)%nat.
Proof. induction a as [|c' a IH]; simpl; [done|]. by rewrite IH. Qed.

Lemma hasLineBreak_app (a b : string) :
  hasLineBreak (a +:+ b) = hasLineBreak a || hasLineBreak b.
Proof.
  induction a as [|c a IH]; simpl; [done|]. rewrite IH. by rewrite orb_assoc.
Qed.

Lemma no_break_no_newline (s : string) :
  hasLineBreak s = false → countChar "010"%char s = 0%nat.
Proof.
  induction s as [|c s IH]; simpl; [done|].
  intros [Hc Hs]%orb_false_elim. rewrite (IH Hs).
  unfold isLineBreak in Hc. apply orb_false_elim in Hc as [Hc _].
  by rewrite Hc.
Qed.

Lemma collapseLineBreaks_clean inRun (s : string) :
  hasLineBreak (collapseLineBreaks inRun s) = false.
Proof.
  revert inRun. induction s as [|c s IH]; intros inRun; simpl; [done|].
  destruct (isLineBreak c) eqn:Hc.
  - destruct inRun; simpl; by rewrite ?IH.
  - simpl. by rewrite Hc, IH.
Qed.

Lemma collapseLineBreaks_fixes_clean inRun (s : string) :
  hasLineBreak s = false → collapseLineBreaks inRun s = s.
Proof.
  revert inRun. induction s as [|c s IH]; intros inRun; simpl; [done|].
  intros [Hc Hs]%orb_false_elim. rewrite Hc. by rewrite (IH _ Hs).
Qed.

Lemma breakLines_no_newline (s : string) :
  countChar "010"%char (breakLines s) = 0%nat.
Proof.
  induction s as [|c s IH]; simpl; [done|].
  case_bool_decide as Hc; simpl; [exact IH|].
  rewrite bool_decide_false by done. by rewrite IH.
Qed.

(** X1. [replaceAll(/[\n\r]+/g, ' ')] leaves no line feed and no carriage
    return, and never makes the text longer. *)
Theorem collapseLineBreaks_removes_all_breaks (s : string) :
  hasLineBreak (collapseLineBreaks false s) = false
  ∧ (String.length (collapseLineBreaks false s) ≤ String.length s)%nat.
Proof.
  split; [apply collapseLineBreaks_clean|].
  generalize false. induction s as [|c s IH]; intros inRun; simpl; [done|].
  destruct (isLineBreak c); [destruct inRun|]; simpl;
    pose proof (IH true); pose proof (IH false); lia.
Qed.

(** X2. Collapsing line breaks twice is collapsing them once. *)
Theorem collapseLineBreaks_idempotent (s : string) :
  collapseLineBreaks false (collapseLineBreaks false s)
  = collapseLineBreaks false s.
Proof. apply collapseLineBreaks_fixes_clean, collapseLineBreaks_clean. Qed.

(** X3. [replaceAll('\n', '<br>')] leaves no line feed, and the text grows
    by three characters for each line feed it had. *)
Theorem breakLines_replaces_every_newline (s : string) :
  countChar "010"%char (breakLines s) = 0%nat
  ∧ String.length (breakLines s)
    = (String.length s + 3 * countChar "010"%char s)%nat.
Proof.
  split; [apply breakLines_no_newline|].
  induction s as [|c s IH]; simpl; [done|].
  case_bool_decide; [rewrite length_app_string|]; simpl; rewrite IH; lia.
Qed.

Lemma formatResults_line (d : Document) :
  hasLineBreak (source d) = false →
  countChar "010"%char
    (source d +:+ ": " +:+ collapseLineBreaks false (pageContent d)) = 0%nat.
Proof.
  intros Hsrc. apply no_break_no_newline.
  rewrite !hasLineBreak_app, Hsrc, collapseLineBreaks_clean. done.
Qed.

Lemma join_counts_lines (xs : list string) :
  Forall (λ x, countChar "010"%char x = 0%nat) xs →
  countChar "010"%char (join nl xs) = (length xs - 1)%nat.
Proof.
  unfold join. induction 1 as [|x xs Hx Hxs IH]; [done|].
  destruct xs as [|y ys]; [exact Hx|].
  change (String.concat nl (x :: y :: ys))
    with (x +:+ nl +:+ String.concat nl (y :: ys)).
  rewrite !countChar_app, Hx, IH. simpl. lia.
Qed.

(** X4. When at least one document is retrieved and no document source
    holds a line break, the sources text [results.join('\n')] has exactly
    one line per document: it is cut by line feeds into as many pieces as
    there are documents. *)
Theorem sources_text_has_one_line_per_document (d : Document)
    (ds : list Document) :
  Forall (λ d', hasLineBreak (source d') = false) (d :: ds) →
  (countChar "010"%char (join nl (ChatService.formatResults (d :: ds))) + 1
   = length (d :: ds))%nat.
Proof.
  intros Hclean. rewrite join_counts_lines.
  - unfold ChatService.formatResults. rewrite length_map. simpl. lia.
  - unfold ChatService.formatResults. apply Forall_fmap.
    eapply Forall_impl; [exact Hclean|]. intros d' Hd.
    by apply formatResults_line.
Qed.

Lemma sources_text_has_one_line_per_document_witness :
  let d1 :=
    {| source := "plan.pdf"; pageContent := "Warm up" +:+ nl +:+ nl +:+ "Run" |} in
  let d2 := {| source := "diet.pdf"; pageContent := "Eat" +:+ nl +:+ "well" |} in
  Forall (λ d', hasLineBreak (source d') = false) [d1; d2]
  ∧ join nl (ChatService.formatResults [d1; d2])
    = "plan.pdf: Warm up Run" +:+ nl +:+ "diet.pdf: Eat well"
  ∧ (countChar "010"%char (join nl (ChatService.formatResults [d1; d2])) + 1
     = 2)%nat.
Proof.
  intros d1 d2.
  assert (Hclean : Forall (λ d', hasLineBreak (source d') = false) [d1; d2])
    by (repeat constructor).
  split; [exact Hclean|]. split; [reflexivity|].
  exact (sources_text_has_one_line_per_document d1 [d2] Hclean).
Defined.

(** With no retrieved document the sources text is empty. *)
Example sources_text_without_documents :
  join nl (ChatService.formatResults []) = "".
Proof. reflexivity. Qed.

(** ** The service *)

Section RunFacts.

Variable tokenCount : string → AIChatMessage → Z.
Variable guard : PopGuard.

Import MessageBuilder.

Abbreviation runOf := (ChatService.run tokenCount guard).
Abbreviation promptOf := (ChatService.buildPrompt tokenCount guard).
Abbreviation startOf := (startBuilder tokenCount).
Abbreviation historyOf := (appendHistory tokenCount).

(** Assembling the prompt never throws, and the system prompt stays at the
    head. *)
Lemma buildPrompt_returns svc (conversation : list AIChatMessage) question results :
  ∃ b, promptOf svc conversation question results = Ok b
       ∧ getMessages b !! 0%nat = Some (systemEntry SYSTEM_MESSAGE_PROMPT).
Proof.
  rewrite buildPrompt_unfold.
  set (walk := ChatService.historyWalk conversation).
  destruct (historyLoop_characterised tokenCount guard
              (ChatService.tokenLimit svc) walk (startOf svc question results))
    as (k & _ & _ & [[_ Hall]|(_ & _ & Hpop)]).
  - eexists. split; [exact Hall|]. unfold getMessages.
    by rewrite messages_after_start.
  - destruct (pop_after_start tokenCount guard svc question results (take k walk))
      as (b & Hb & Hms).
    exists b. split; [by rewrite Hpop|]. unfold getMessages. by rewrite Hms.
Qed.

Lemma lastContent_empty_iff (conversation : list AIChatMessage) e :
  ChatService.lastContent conversation = Throw e
  ↔ conversation = [] ∧ e = emptyConversationError.
Proof.
  unfold ChatService.lastContent. split.
  - destruct (last conversation) as [m|] eqn:Hlast; [done|].
    intros [= <-]. split; [by apply last_None|done].
  - intros [-> ->]. done.
Qed.

(** X5. An empty conversation makes [run] throw a [TypeError] before any
    retrieval or generation, whatever the service; [POST /chat] logs it and
    replies with an internal server error. *)
Theorem empty_conversation_is_an_internal_server_error svc log :
  runOf svc [] = Throw emptyConversationError
  ∧ Routes.chatHandler tokenCount guard svc (Some []) log
    = ((log ++ [emptyConversationError])%list,
       Replied (InternalServerError (message emptyConversationError))).
Proof. split; reflexivity. Qed.

(** X6. [run] throws only for one of three reasons: the conversation is
    empty, the retrieval call rejected, or the generation call rejected on
    the assembled prompt. Assembling the prompt, [popMessage] included, never
    makes it throw. *)
Theorem run_failure_has_three_origins svc (conversation : list AIChatMessage) e :
  runOf svc conversation = Throw e →
  (conversation = [] ∧ e = emptyConversationError)
  ∨ (∃ query,
       ChatService.lastContent conversation = Ok query
       ∧ similaritySearch (ChatService.vectorStore svc) query 3 = Throw e)
  ∨ (∃ query documents b,
       ChatService.lastContent conversation = Ok query
       ∧ similaritySearch (ChatService.vectorStore svc) query 3 = Ok documents
       ∧ promptOf svc conversation query (ChatService.formatResults documents) = Ok b
       ∧ invoke (ChatService.model svc) (getMessages b) = Throw e).
Proof.
  unfold ChatService.run.
  destruct (ChatService.lastContent conversation) as [query|e0] eqn:Hq; simpl.
  - destruct (similaritySearch (ChatService.vectorStore svc) query 3)
      as [documents|e1] eqn:Hd; simpl.
    + destruct (buildPrompt_returns svc conversation query
                  (ChatService.formatResults documents)) as (b & Hb & _).
      rewrite Hb. simpl.
      destruct (invoke (ChatService.model svc) (getMessages b))
        as [answer|e2] eqn:Hi; simpl; [done|].
      intros [= <-]. right. right. by exists query, documents, b.
    + intros [= <-]. right. left. by exists query.
  - intros [= <-]. left. by apply lastContent_empty_iff.
Qed.

(** What a returned completion tells about the run. *)
Lemma run_inversion svc (conversation : list AIChatMessage) c :
  runOf svc conversation = Ok c →
  ∃ query documents b answer,
    ChatService.lastContent conversation = Ok query
    ∧ similaritySearch (ChatService.vectorStore svc) query 3 = Ok documents
    ∧ promptOf svc conversation query (ChatService.formatResults documents) = Ok b
    ∧ invoke (ChatService.model svc) (getMessages b) = Ok answer
    ∧ completionMessage c = {| role := assistant; content := answer |}
    ∧ data_points c
      = map (λ d, source d +:+ ": " +:+ collapseLineBreaks false (pageContent d))
          documents
    ∧ length (data_points c) = length documents
    ∧ countChar "010"%char (thoughts c) = 0%nat.
Proof.
  unfold ChatService.run.
  destruct (ChatService.lastContent conversation) as [query|e0] eqn:Hq;
    simpl; [|done].
  destruct (similaritySearch (ChatService.vectorStore svc) query 3)
    as [documents|e1] eqn:Hd; simpl; [|done].
  destruct (promptOf svc conversation query (ChatService.formatResults documents))
    as [b|e2] eqn:Hb; simpl; [|done].
  destruct (invoke (ChatService.model svc) (getMessages b))
    as [answer|e3] eqn:Hi; simpl; [|done].
  intros [= <-]. exists query, documents, b, answer. simpl.
  repeat split; try done.
  - unfold ChatService.formatResults. by rewrite length_map.
  - unfold ChatService.thoughtsOf. apply breakLines_no_newline.
Qed.

(** X7. When [run] returns, the message of the completion has the role
    [assistant] and the content the model answered on the assembled prompt,
    there is one data point per retrieved document, each the source and the
    passage on one line, and [thoughts] holds no line feed. *)
Theorem run_result_shape svc (conversation : list AIChatMessage) c :
  runOf svc conversation = Ok c →
  ∃ query documents b answer,
    ChatService.lastContent conversation = Ok query
    ∧ similaritySearch (ChatService.vectorStore svc) query 3 = Ok documents
    ∧ promptOf svc conversation query (ChatService.formatResults documents) = Ok b
    ∧ invoke (ChatService.model svc) (getMessages b) = Ok answer
    ∧ completionMessage c = {| role := assistant; content := answer |}
    ∧ data_points c
      = map (λ d, source d +:+ ": " +:+ collapseLineBreaks false (pageContent d))
          documents
    ∧ length (data_points c) = length documents
    ∧ countChar "010"%char (thoughts c) = 0%nat.
Proof. apply run_inversion. Qed.


(** X9. A conversation of one message has no history to walk: whatever the
    token limit and whatever the role the message came with, the generation
    call receives the system prompt and the question with its sources as a
    user message, and nothing else. *)
Theorem single_turn_prompt svc (q : AIChatMessage) documents :
  similaritySearch (ChatService.vectorStore svc) (content q) 3 = Ok documents →
  runOf svc [q]
  = let! completion :=
      invoke (ChatService.model svc)
        [ systemEntry SYSTEM_MESSAGE_PROMPT;
          {| role := user;
             content := content q +:+ nl +:+ nl +:+ "Sources:" +:+ nl
                          +:+ join nl (ChatService.formatResults documents) |} ] in
    Ok {| completionMessage := {| role := assistant; content := completion |};
          data_points := ChatService.formatResults documents;
          thoughts :=
            ChatService.thoughtsOf (content q)
              [ systemEntry SYSTEM_MESSAGE_PROMPT;
                userEntry (content q) (ChatService.formatResults documents) ] |}.
Proof.
  intros Hd.
  by rewrite (run_generation_input tokenCount guard svc [q] (content q) documents
                (startOf svc (content q) (ChatService.formatResults documents))).
Qed.

(** X10. Whatever the conversation and the limit, the prompt is assembled
    and its first message is the system prompt of the service. *)
Theorem prompt_starts_with_system_prompt svc (conversation : list AIChatMessage)
    question results :
  ∃ b, promptOf svc conversation question results = Ok b
       ∧ getMessages b !! 0%nat
         = Some {| role := system; content := SYSTEM_MESSAGE_PROMPT |}.
Proof. apply buildPrompt_returns. Qed.

Lemma tokens_appendHistory walk b :
  tokens (historyOf walk b)
  = (tokens b + sumTokens tokenCount (tokenModel b) walk)%Z.
Proof.
  revert b. induction walk as [|h walk IH]; intros b; [simpl; lia|].
  rewrite appendHistory_cons, IH. simpl. rewrite message_eta.
  fold (sumTokens tokenCount (tokenModel b) walk). lia.
Qed.

Lemma sumTokens_nonneg model (ms : list AIChatMessage) :
  (∀ m, 0 ≤ tokenCount model m)%Z → (0 ≤ sumTokens tokenCount model ms)%Z.
Proof.
  intros Hpos. induction ms as [|m ms IH]; simpl; [lia|].
  fold (sumTokens tokenCount model ms). specialize (Hpos m). lia.
Qed.

Lemma sumTokens_app model (xs ys : list AIChatMessage) :
  sumTokens tokenCount model (xs ++ ys)
  = (sumTokens tokenCount model xs + sumTokens tokenCount model ys)%Z.
Proof.
  induction xs as [|x xs IH]; simpl; [lia|].
  fold (sumTokens tokenCount model (xs ++ ys)). rewrite IH.
  fold (sumTokens tokenCount model xs). lia.
Qed.

(** X11. When token estimates are never negative and the whole conversation
    fits the limit, nothing is dropped: the prompt holds the system prompt,
    the question and every earlier turn, each once, and its total is within
    the limit. *)
Theorem fitting_conversation_is_kept_whole svc (hist : list AIChatMessage)
    (q : AIChatMessage) question results :
  (∀ model m, 0 ≤ tokenCount model m)%Z →
  (tokens (historyOf (reverse hist) (startOf svc question results))
     ≤ ChatService.tokenLimit svc)%Z →
  ∃ b, promptOf svc (hist ++ [q]) question results = Ok b
       ∧ getMessages b
         ≡ₚ systemEntry SYSTEM_MESSAGE_PROMPT :: userEntry question results
              :: hist
       ∧ (tokens b ≤ ChatService.tokenLimit svc)%Z.
Proof.
  intros Hpos Hfit. rewrite buildPrompt_unfold, historyWalk_snoc.
  set (walk := reverse hist) in *. set (b0 := startOf svc question results) in *.
  destruct (historyLoop_characterised tokenCount guard
              (ChatService.tokenLimit svc) walk b0)
    as (k & Hk & _ & [[_ Hall]|(Hlt & Hbig & _)]).
  - exists (historyOf walk b0). split; [exact Hall|]. split; [|exact Hfit].
    unfold getMessages, b0, walk.
    rewrite messages_after_start, reverse_involutive.
    f_equiv. by rewrite Permutation_app_comm.
  - exfalso. rewrite tokens_appendHistory in Hbig, Hfit.
    rewrite <- (take_drop k walk) in Hfit. rewrite sumTokens_app in Hfit.
    pose proof (sumTokens_nonneg (tokenModel b0) (drop k walk) (Hpos _)). lia.
Qed.

End RunFacts.

Lemma run_failure_has_three_origins_witness :
  ChatService.run Fixture.charTokens PopFails Fixture.serviceDown [Fixture.question]
  = Throw Fixture.outage
  ∧ ∃ query,
      ChatService.lastContent [Fixture.question] = Ok query
      ∧ similaritySearch (ChatService.vectorStore Fixture.serviceDown) query 3
        = Throw Fixture.outage.
Proof.
  assert (Hrun : ChatService.run Fixture.charTokens PopFails Fixture.serviceDown
                   [Fixture.question] = Throw Fixture.outage) by reflexivity.
  split; [exact Hrun|].
  destruct (run_failure_has_three_origins Fixture.charTokens PopFails
              Fixture.serviceDown [Fixture.question] Fixture.outage Hrun)
    as [[Hnil _]|[Hsearch|(query & documents & b & _ & Hd & _)]].
  - discriminate Hnil.
  - exact Hsearch.
  - discriminate Hd.
Defined.

Lemma run_result_shape_witness :
  ∃ c, ChatService.run Fixture.charTokens PopNoOp Fixture.service
         [Fixture.shortTurn; Fixture.question] = Ok c
       ∧ completionMessage c
         = {| role := assistant; content := "Drink water. [doc.pdf]" |}
       ∧ data_points c = [].
Proof.
  eexists. split; [vm_compute; reflexivity|].
  match goal with
  | |- completionMessage ?c = _ ∧ _ =>
      destruct (run_result_shape Fixture.charTokens PopNoOp Fixture.service
                  [Fixture.shortTurn; Fixture.question] c)
        as (query & documents & b & answer & _ & Hd & _ & Hi & Hm & Hp & _);
        [vm_compute; reflexivity|]
  end.
  injection Hd as <-. injection Hi as <-. split; [exact Hm|exact Hp].
Defined.


Lemma single_turn_prompt_witness :
  similaritySearch (ChatService.vectorStore Fixture.serviceEcho)
    (content Fixture.longQuestion) 3 = Ok []
  ∧ ∃ c, ChatService.run Fixture.charTokens PopNoOp Fixture.serviceEcho
           [Fixture.longQuestion] = Ok c
         ∧ completionMessage c = {| role := assistant; content := "system,user" |}.
Proof.
  split; [reflexivity|].
  rewrite (single_turn_prompt Fixture.charTokens PopNoOp Fixture.serviceEcho
             Fixture.longQuestion [] eq_refl).
  eexists. split; reflexivity.
Defined.

Lemma fitting_conversation_is_kept_whole_witness :
  let hist := [Fixture.shortTurn; Fixture.shortReply] in
  (∀ model m, 0 ≤ Fixture.charTokens model m)%Z
  ∧ (MessageBuilder.tokens
       (appendHistory Fixture.charTokens (reverse hist)
          (startBuilder Fixture.charTokens Fixture.service "How much water?" []))
     ≤ ChatService.tokenLimit Fixture.service)%Z
  ∧ ∃ b, ChatService.buildPrompt Fixture.charTokens PopNoOp Fixture.service
           (hist ++ [Fixture.question]) "How much water?" [] = Ok b
         ∧ MessageBuilder.getMessages b
           ≡ₚ systemEntry SYSTEM_MESSAGE_PROMPT :: userEntry "How much water?" []
                :: hist
         ∧ (MessageBuilder.tokens b ≤ ChatService.tokenLimit Fixture.service)%Z.
Proof.
  intros hist.
  assert (Hpos : (∀ model m, 0 ≤ Fixture.charTokens model m)%Z)
    by (intros model m; unfold Fixture.charTokens; lia).
  assert (Hfit : (MessageBuilder.tokens
                    (appendHistory Fixture.charTokens (reverse hist)
                       (startBuilder Fixture.charTokens Fixture.service
                          "How much water?" []))
                  ≤ ChatService.tokenLimit Fixture.service)%Z)
    by (vm_compute; discriminate).
  split; [exact Hpos|]. split; [exact Hfit|].
  exact (fitting_conversation_is_kept_whole Fixture.charTokens PopNoOp
           Fixture.service hist Fixture.question "How much water?" [] Hpos Hfit).
Defined.

(** ** The routes, continued *)

Section RouteFacts.

Variable tokenCount : string → AIChatMessage → Z.
Variable guard : PopGuard.
Variable stringify : JsValue → string.

Abbreviation chatOf := (Routes.chatHandler tokenCount guard).
Abbreviation chatStreamOf := (Routes.chatStreamHandler tokenCount guard stringify).

(** X12. Both handlers log exactly the errors they answer: either the
    handler appends one error to the log and replies with an internal server
    error carrying that error's message, or it leaves the log as it was and
    its result is not an internal server error. *)
Theorem handlers_log_what_they_answer svc (body : option (list AIChatMessage))
    (log : list JsError) :
  let logsItsAnswer (result : list JsError * HandlerResult) :=
    (∃ e, result = ((log ++ [e])%list, Replied (InternalServerError (message e))))
    ∨ (result.1 = log ∧ ∀ msg, result.2 ≠ Replied (InternalServerError msg)) in
  logsItsAnswer (chatOf svc body log)
  ∧ logsItsAnswer (chatStreamOf svc body log).
Proof.
  intros logsItsAnswer. unfold logsItsAnswer. destruct body as [conversation|].
  - split.
    + unfold Routes.chatHandler. simpl.
      destruct (ChatService.run tokenCount guard svc conversation) as [c|e].
      * right. split; [done|]. intros msg. discriminate.
      * left. by exists e.
    + left. exists noStreamingMethod. apply chatStream_always_catches.
  - split; right; (split; [done|]); intros msg; discriminate.
Qed.

(** X13. [POST /chat] replies with a completion exactly when the body holds
    a conversation on which [run] returns, and the completion sent is the one
    [run] returned; nothing is logged then. *)
Theorem chat_replies_with_the_completion_of_run svc
    (body : option (list AIChatMessage)) (log : list JsError) c :
  chatOf svc body log = (log, Replied (SendCompletion c))
  ↔ ∃ conversation,
      body = Some conversation
      ∧ ChatService.run tokenCount guard svc conversation = Ok c.
Proof.
  unfold Routes.chatHandler. split.
  - destruct body as [conversation|]; simpl; [|done].
    destruct (ChatService.run tokenCount guard svc conversation) as [c'|e]
      eqn:Hrun; [|done].
    intros [= <-]. by exists conversation.
  - intros (conversation & -> & Hrun). simpl. by rewrite Hrun.
Qed.

Lemma countChar_concat_lines (xs : list string) :
  Forall (λ x, countChar "010"%char x = 0%nat) xs →
  countChar "010"%char (String.concat "" (map (λ x, x +:+ nl) xs)) = length xs.
Proof.
  induction 1 as [|x xs Hx Hxs IH]; [done|].
  destruct xs as [|y ys].
  - simpl. rewrite countChar_app, Hx. done.
  - change (String.concat "" (map (λ x, x +:+ nl) (x :: y :: ys)))
      with ((x +:+ nl) +:+ "" +:+ String.concat "" (map (λ x, x +:+ nl) (y :: ys))).
    rewrite !countChar_app, Hx, IH. simpl. lia.
Qed.

(** X14. [createNdJsonStream] frames the chunks as newline-delimited JSON:
    one line per chunk, in order, each the JSON text of the chunk followed by
    a line feed; when the JSON text of a chunk never holds a line feed, the
    stream has exactly as many line feeds as chunks. *)
Theorem ndjson_has_one_line_per_chunk (chunks : list JsValue) :
  (∀ chunk, countChar "010"%char (stringify chunk) = 0%nat) →
  ∃ lines,
    Routes.createNdJsonStream stringify (VGenerator chunks) = Ok lines
    ∧ length lines = length chunks
    ∧ (∀ i chunk, chunks !! i = Some chunk →
                  lines !! i = Some (stringify chunk +:+ nl))
    ∧ countChar "010"%char (String.concat "" lines) = length chunks.
Proof.
  intros Hjson. eexists. split; [reflexivity|]. split; [by rewrite length_map|].
  split.
  - intros i chunk Hi. by rewrite list_lookup_fmap, Hi.
  - rewrite <- (length_map stringify chunks).
    rewrite <- (countChar_concat_lines (map stringify chunks)).
    + by rewrite map_map.
    + apply Forall_fmap, Forall_forall. intros chunk _. apply Hjson.
Qed.

End RouteFacts.

Lemma ndjson_has_one_line_per_chunk_witness :
  let stringify := λ _ : JsValue, "{}" in
  (∀ chunk, countChar "010"%char (stringify chunk) = 0%nat)
  ∧ ∃ lines,
      Routes.createNdJsonStream stringify (VGenerator [VOpaque; VNumber 1]) = Ok lines
      ∧ length lines = 2%nat
      ∧ countChar "010"%char (String.concat "" lines) = 2%nat.
Proof.
  intros stringify.
  assert (Hjson : ∀ chunk, countChar "010"%char (stringify chunk) = 0%nat)
    by (intros chunk; reflexivity).
  split; [exact Hjson|].
  destruct (ndjson_has_one_line_per_chunk stringify [VOpaque; VNumber 1] Hjson)
    as (lines & Hlines & Hlen & _ & Hcount).
  exists lines. split; [exact Hlines|]. split; [exact Hlen|exact Hcount].
Defined.

(** ** The upload script *)

Section UploadFacts.

Import UploadScript.

Lemma uploadLoop_characterised endpoint (words : list (string * bool)) count :
  uploadLoop endpoint words count
  = (flat_map (uploadOf endpoint) (regularFiles words),
     (count + length (regularFiles words))%nat).
Proof.
  revert count. induction words as [|[file isFile] rest IH]; intros count.
  - change (regularFiles []) with (@nil string). simpl. f_equal. lia.
  - cbn [uploadLoop]. destruct isFile.
    + rewrite IH.
      change (regularFiles ((file, true) :: rest)) with (file :: regularFiles rest).
      simpl. f_equal. lia.
    + rewrite IH.
      change (regularFiles ((file, false) :: rest)) with (regularFiles rest).
      done.
Qed.

Lemma curlCalls_app (xs ys : list Event) :
  curlCalls (xs ++ ys) = (curlCalls xs ++ curlCalls ys)%list.
Proof. apply omap_app. Qed.

Lemma curlCalls_uploads endpoint (files : list string) :
  curlCalls (flat_map (uploadOf endpoint) files) = map (λ f, (f, endpoint)) files.
Proof.
  induction files as [|f files IH]; [done|].
  simpl. unfold curlCalls in *. simpl. by rewrite IH.
Qed.

(** X15. The script exits with status 0 exactly when [./data] is a directory
    and at least one of the words of [./data/*.pdf] is a regular file;
    otherwise it exits with status 1. *)
Theorem upload_exit_status (env : Env) :
  ((main env).2 = 0%Z
   ↔ dataIsDirectory env = true ∧ regularFiles (pdfWords env) ≠ [])
  ∧ ((main env).2 = 0%Z ∨ (main env).2 = 1%Z).
Proof.
  unfold main. destruct (dataIsDirectory env); simpl.
  - rewrite uploadLoop_characterised. simpl.
    destruct (regularFiles (pdfWords env)) as [|f files]; simpl.
    + split; [|by right]. split; [done|]. intros [_ Hne]. done.
    + split; [|by left]. split; [done|]. done.
  - split; [|by right]. split; [done|]. intros [Hdir _]. done.
Qed.

Lemma curlCalls_main (env : Env) :
  curlCalls (main env).1
  = if dataIsDirectory env
    then map (λ file, (file, API_ENDPOINT (ingestionApiUri env)))
           (regularFiles (pdfWords env))
    else [].
Proof.
  unfold main. destruct (dataIsDirectory env); simpl negb; cbn match.
  - rewrite uploadLoop_characterised.
    destruct (bool_decide (0 + length (regularFiles (pdfWords env)) = 0)%nat);
      cbn [fst]; rewrite !curlCalls_app, curlCalls_uploads;
      destruct (azdSucceeds env); simpl; by rewrite app_nil_r.
  - cbn [fst]. by destruct (azdSucceeds env).
Qed.

(** X16. The script calls [curl] once for each word of [./data/*.pdf] that
    is a regular file, in the order of the words, every time with the same
    endpoint, [$INGESTION_API_URI/documents] or
    [http://localhost:3001/documents] when the variable is unset or empty;
    when [./data] is not a directory it calls [curl] for nothing. *)
Theorem upload_sends_each_regular_file_once (env : Env) :
  curlCalls (main env).1
  = if dataIsDirectory env
    then map (λ file, (file, API_ENDPOINT (ingestionApiUri env)))
           (regularFiles (pdfWords env))
    else [].
Proof. apply curlCalls_main. Qed.

(** X17. The last line the script writes tells how it ended: the missing
    directory, no PDF file found, or the number of files processed, which is
    the number of [curl] calls it made. *)
Theorem upload_last_line_reports_the_count (env : Env) :
  last (main env).1
  = Some (Echo
      (if negb (dataIsDirectory env)
       then "Error: Data directory './data' not found"
       else if bool_decide (length (curlCalls (main env).1) = 0%nat)
       then "No PDF files found in ./data"
       else "Successfully processed "
              +:+ pretty (length (curlCalls (main env).1)) +:+ " PDF files")).
Proof.
  rewrite curlCalls_main.
  unfold main. destruct (dataIsDirectory env); simpl negb; cbn match.
  - rewrite uploadLoop_characterised, length_map. simpl Nat.add.
    case_bool_decide; cbn [fst]; by rewrite !app_assoc, last_snoc.
  - cbn [fst]. by rewrite !app_assoc, last_snoc.
Qed.

End UploadFacts.

(** ** The default budget at its boundary *)

(** With the stand-in tokenizer the system prompt and the question take 854
    tokens. A newest earlier turn that brings the total to exactly 4000 is
    not an overflow: the older turn is appended after it. *)
Example default_budget_keeps_a_total_of_4000 :
  let mid := {| role := assistant; content := Fixture.repeatChar "m"%char 3142 |} in
  ∃ b, ChatService.buildPrompt Fixture.charTokens PopNoOp Fixture.service
         [Fixture.shortTurn; mid; Fixture.question] "How much water?" [] = Ok b
       ∧ MessageBuilder.getMessages b
         = [systemEntry SYSTEM_MESSAGE_PROMPT; Fixture.shortTurn; mid;
            userEntry "How much water?" []].
Proof. intros mid. eexists. split; vm_compute; reflexivity. Qed.

(** One character more brings the total to 4001: the next iteration pops
    that turn and breaks, and the older turn is never appended. *)
Example default_budget_pops_a_total_of_4001 :
  let mid := {| role := assistant; content := Fixture.repeatChar "m"%char 3143 |} in
  ∃ b, ChatService.buildPrompt Fixture.charTokens PopNoOp Fixture.service
         [Fixture.shortTurn; mid; Fixture.question] "How much water?" [] = Ok b
       ∧ MessageBuilder.getMessages b
         = [systemEntry SYSTEM_MESSAGE_PROMPT; userEntry "How much water?" []].
Proof. intros mid. eexists. split; vm_compute; reflexivity. Qed.

(** ** Runs of the upload script *)

(** Nothing matches [./data/*.pdf]: the one word is the pattern, which is
    not a file; the script uploads nothing and exits with status 1. *)
Example upload_with_no_match :
  UploadScript.main
    {| UploadScript.azdSucceeds := false;
       UploadScript.ingestionApiUri := None;
       UploadScript.dataIsDirectory := true;
       UploadScript.pdfWords := [("./data/*.pdf", false)] |}
  = ([UploadScript.Echo "Uploading PDF files to the ingestion API";
      UploadScript.Echo "No PDF files found in ./data"], 1%Z).
Proof. reflexivity. Qed.

(** Two PDF files and a directory named like one, with the endpoint taken
    from the environment. *)
Example upload_two_files :
  UploadScript.main
    {| UploadScript.azdSucceeds := true;
       UploadScript.ingestionApiUri := Some "https://ingest.example";
       UploadScript.dataIsDirectory := true;
       UploadScript.pdfWords :=
         [("./data/a.pdf", true); ("./data/old.pdf", false); ("./data/b.pdf", true)] |}
  = ([UploadScript.Echo "Loading azd .env file from current environment";
      UploadScript.Echo "Uploading PDF files to the ingestion API";
      UploadScript.Echo "Uploading: a.pdf";
      UploadScript.Curl "./data/a.pdf" "https://ingest.example/documents";
      UploadScript.Echo "";
      UploadScript.Echo "Uploading: b.pdf";
      UploadScript.Curl "./data/b.pdf" "https://ingest.example/documents";
      UploadScript.Echo "";
      UploadScript.Echo "Successfully processed 2 PDF files"], 0%Z).
Proof. vm_compute. reflexivity. Qed.

(** An empty [INGESTION_API_URI] falls back to the local endpoint. *)
Example upload_endpoint_default :
  UploadScript.API_ENDPOINT (Some "") = "http://localhost:3001/documents"
  ∧ UploadScript.API_ENDPOINT None = "http://localhost:3001/documents".
Proof. split; reflexivity. Qed.
